(** * etcd-operator: the StatefulSet factory

    A shallow embedding of [internal/controller/factory/statefulset.go]:
    the composers of volumes, volume mounts, etcd arguments, probes and the
    container, and [CreateOrUpdateStatefulSet], which assembles the
    StatefulSet of an [EtcdCluster] and hands it to the reconciler.

    Conventions of the embedding.
    - A Go pointer or slice that the code compares with [nil] is an [option];
      a string is a [string]; a [map[string]string] is a [gmap string string]
      (wrapped in [option] where the code distinguishes a nil map).
    - A [for k, v := range m] loop visits the entries of [m] in an order the
      Go runtime picks.  Each function with such a loop takes the visiting
      order as an argument; [rangeOf m order] says that [order] is a possible
      one (a permutation of the entries of [m]).
    - The cluster is passed by pointer and [CreateOrUpdateStatefulSet] writes
      through it, so the embedding returns the cluster after the call next to
      the result.
    - A Go [error] is its message. *)

From Stdlib Require Import ZArith.
From stdpp Require Import base strings list gmap fin_maps.

Local Open Scope Z_scope.

(** ** Types the file only carries around

    Payloads of imported Kubernetes types that [statefulset.go] copies or
    passes on without looking inside. *)
Class Payloads := {
  PersistentVolumeClaimSpec : Type;
  PersistentVolumeClaimStatus : Type;
  (** the fields of [corev1.PodSpec] other than [Containers] and [Volumes] *)
  PodSpecRest : Type;
  (** their zero values, as in a struct literal that does not name them *)
  zeroPodSpecRest : PodSpecRest;
  OwnerReference : Type;
  Scheme : Type;
  (** [context.Context] *)
  Ctx : Type;
  (** [client.Client], with the state of the object store behind it *)
  Client : Type;
}.

(** A Go [error], by its message. *)
Definition error : Type := string.

(** Outcome of a call that returns [(value, error)]. *)
Inductive result (A : Type) : Type :=
| Ok (a : A)
| Err (e : error).
Arguments Ok {A} a.
Arguments Err {A} e.

(** ** k8s.io/api/core/v1, the fields used here *)

Record EmptyDirVolumeSource := {
  Medium : string;
  SizeLimit : option string;
}.

Record PersistentVolumeClaimVolumeSource := { ClaimName : string }.

Record SecretVolumeSource := { SecretName : string }.

Record VolumeSource := {
  vs_EmptyDir : option EmptyDirVolumeSource;
  vs_PersistentVolumeClaim : option PersistentVolumeClaimVolumeSource;
  vs_Secret : option SecretVolumeSource;
}.

Record Volume := {
  vol_Name : string;
  vol_VolumeSource : VolumeSource;
}.

Record VolumeMount := {
  vm_Name : string;
  vm_ReadOnly : bool;
  vm_MountPath : string;
}.

(** [intstr.IntOrString] *)
Inductive IntOrString :=
| FromInt32 (v : Z)
| FromString (s : string).

Record HTTPGetAction := {
  Path : string;
  Port : IntOrString;
}.

Record Probe := {
  HTTPGet : option HTTPGetAction;
  PeriodSeconds : Z;
}.

Record ObjectFieldSelector := { FieldPath : string }.

Record EnvVarSource := { FieldRef : option ObjectFieldSelector }.

Record EnvVar := {
  env_Name : string;
  env_ValueFrom : option EnvVarSource;
}.

Record ConfigMapEnvSource := { cm_Name : string }.

Record EnvFromSource := { ConfigMapRef : option ConfigMapEnvSource }.

Record ContainerPort := {
  port_Name : string;
  port_ContainerPort : Z;
}.

Record Container := {
  c_Name : string;
  c_Image : string;
  c_Command : list string;
  c_Args : list string;
  c_Ports : list ContainerPort;
  c_EnvFrom : list EnvFromSource;
  c_Env : list EnvVar;
  c_StartupProbe : option Probe;
  c_LivenessProbe : option Probe;
  c_ReadinessProbe : option Probe;
  c_VolumeMounts : list VolumeMount;
}.

Section Types.
Context `{Payloads}.

Record PodSpec := {
  ps_Containers : option (list Container);
  ps_Volumes : option (list Volume);
  ps_Rest : PodSpecRest;
}.

(** [metav1.ObjectMeta] *)
Record ObjectMeta := {
  om_Name : string;
  om_Namespace : string;
  om_Labels : option (gmap string string);
  om_Annotations : option (gmap string string);
  om_OwnerReferences : list OwnerReference;
}.

Record PersistentVolumeClaim := {
  pvc_ObjectMeta : ObjectMeta;
  pvc_Spec : PersistentVolumeClaimSpec;
  pvc_Status : PersistentVolumeClaimStatus;
}.

Record PodTemplateSpec := {
  pts_ObjectMeta : ObjectMeta;
  pts_Spec : PodSpec;
}.

(** ** k8s.io/api/apps/v1 *)

Inductive PodManagementPolicyType :=
| OrderedReadyPodManagement
| ParallelPodManagement.

Record LabelSelector := { MatchLabels : gmap string string }.

Record StatefulSetSpec := {
  sts_Replicas : option Z;
  sts_ServiceName : string;
  sts_PodManagementPolicy : PodManagementPolicyType;
  sts_Selector : option LabelSelector;
  sts_Template : PodTemplateSpec;
  sts_VolumeClaimTemplates : list PersistentVolumeClaim;
}.

Record StatefulSet := {
  sts_ObjectMeta : ObjectMeta;
  sts_Spec : StatefulSetSpec;
}.

(** ** api/v1alpha1: the EtcdCluster resource *)

(** Modelled from the spec: the declarations of [EtcdCluster] and of the
    types of its fields (package [api/v1alpha1]) are not among the sources;
    the records below have the fields that [statefulset.go] reads or writes,
    at the types it uses them at.  [VolumeClaimTemplate] is a struct value
    (the code reads its fields without a nil check), [EmptyDir] and
    [Security] are pointers. *)
Record TLSSpec := {
  PeerTrustedCASecret : string;
  PeerSecret : string;
  ServerSecret : string;
  ClientTrustedCASecret : string;
  ClientSecret : string;
}.

Record SecuritySpec := { TLS : TLSSpec }.

Record EmbeddedPersistentVolumeClaim := {
  vct_Labels : option (gmap string string);
  vct_Annotations : option (gmap string string);
  vct_Spec : PersistentVolumeClaimSpec;
  vct_Status : PersistentVolumeClaimStatus;
}.

Record StorageSpec := {
  EmptyDir : option EmptyDirVolumeSource;
  VolumeClaimTemplate : EmbeddedPersistentVolumeClaim;
}.

Record PodTemplate := {
  pt_Labels : option (gmap string string);
  pt_Annotations : option (gmap string string);
  pt_Spec : PodSpec;
}.

Record EtcdClusterSpec := {
  Replicas : option Z;
  Options : gmap string string;
  PodTemplate_ : PodTemplate;
  Storage : StorageSpec;
  Security : option SecuritySpec;
}.

Record EtcdCluster := {
  Name : string;
  Namespace : string;
  Spec : EtcdClusterSpec;
}.

(** ** Functions of the repository and of its libraries that
    [statefulset.go] calls and that are defined elsewhere *)
Class Collaborators := {
  (** [etcdaenixiov1alpha1.DefaultEtcdImage] *)
  DefaultEtcdImage : string;
  GetPVCName : EtcdCluster -> string;
  GetClusterStateConfigMapName : EtcdCluster -> string;
  (** the label builder: each chain starts from a fresh map *)
  NewLabelsBuilder : gmap string string;
  WithName : gmap string string -> gmap string string;
  WithInstance : string -> gmap string string -> gmap string string;
  WithManagedBy : gmap string string -> gmap string string;
  (** [k8sutils.StrategicMerge] *)
  StrategicMerge : PodSpec -> PodSpec -> result PodSpec;
  (** [ctrl.SetControllerReference]: the object with the owner set,
      or the error *)
  SetControllerReference :
    EtcdCluster -> StatefulSet -> Scheme -> result StatefulSet;
  (** [reconcileStatefulSet]: the store after the call, and the error
      if any *)
  reconcileStatefulSet :
    Ctx -> Client -> string -> StatefulSet -> Client * option error;
}.
End Types.

(** ** Iteration over a Go map *)

(** [order] is an order in which [range] may visit the entries of [m]. *)
Definition rangeOf (m : gmap string string) (order : list (string * string)) : Prop :=
  order ≡ₚ map_to_list m.

(** The entries of a map that may be nil. *)
Definition entries (m : option (gmap string string)) : gmap string string :=
  default ∅ m.

Section Factory.
Context `{Payloads} `{!Collaborators}.

Definition etcdContainerName : string := "etcd".

(** The guard [cluster.Spec.Security != nil &&
    cluster.Spec.Security.TLS.<field> != ""], which the three composers
    repeat for [PeerSecret], [ServerSecret] and [ClientSecret]. *)
Definition secretSet (field : TLSSpec -> string) (cluster : EtcdCluster) : bool :=
  match Security (Spec cluster) with
  | Some security => bool_decide (field (TLS security) <> "")
  | None => false
  end.

(** The field of [cluster.Spec.Security.TLS], read under the guard above. *)
Definition tlsField (field : TLSSpec -> string) (cluster : EtcdCluster) : string :=
  match Security (Spec cluster) with
  | Some security => field (TLS security)
  | None => ""
  end.

Definition secretVolume (name secretName : string) : Volume :=
  {| vol_Name := name;
     vol_VolumeSource :=
       {| vs_EmptyDir := None; vs_PersistentVolumeClaim := None;
          vs_Secret := Some {| SecretName := secretName |} |} |}.

Definition generateVolumes (cluster : EtcdCluster) : list Volume :=
  let volumes := [] in
  let dataVolumeSource :=
    match EmptyDir (Storage (Spec cluster)) with
    | Some emptyDir =>
        {| vs_EmptyDir := Some emptyDir; vs_PersistentVolumeClaim := None;
           vs_Secret := None |}
    | None =>
        {| vs_EmptyDir := None;
           vs_PersistentVolumeClaim :=
             Some {| ClaimName := GetPVCName cluster |};
           vs_Secret := None |}
    end in
  let volumes :=
    volumes ++ [ {| vol_Name := "data"; vol_VolumeSource := dataVolumeSource |} ] in
  let volumes :=
    if secretSet PeerSecret cluster then
      volumes ++
        [ secretVolume "peer-trusted-ca-certificate"
            (tlsField PeerTrustedCASecret cluster);
          secretVolume "peer-certificate" (tlsField PeerSecret cluster) ]
    else volumes in
  let volumes :=
    if secretSet ServerSecret cluster then
      volumes ++
        [ secretVolume "server-certificate" (tlsField ServerSecret cluster) ]
    else volumes in
  let volumes :=
    if secretSet ClientSecret cluster then
      volumes ++
        [ secretVolume "client-trusted-ca-certificate"
            (tlsField ClientTrustedCASecret cluster) ]
    else volumes in
  volumes.

Definition generateVolumeMounts (cluster : EtcdCluster) : list VolumeMount :=
  let volumeMounts := [] in
  let volumeMounts :=
    volumeMounts ++
      [ {| vm_Name := "data"; vm_ReadOnly := false;
           vm_MountPath := "/var/run/etcd" |} ] in
  let volumeMounts :=
    if secretSet PeerSecret cluster then
      volumeMounts ++
        [ {| vm_Name := "peer-trusted-ca-certificate"; vm_ReadOnly := true;
             vm_MountPath := "/etc/etcd/pki/peer/ca" |};
          {| vm_Name := "peer-certificate"; vm_ReadOnly := true;
             vm_MountPath := "/etc/etcd/pki/peer/cert" |} ]
    else volumeMounts in
  let volumeMounts :=
    if secretSet ServerSecret cluster then
      volumeMounts ++
        [ {| vm_Name := "server-certificate"; vm_ReadOnly := true;
             vm_MountPath := "/etc/etcd/pki/server/cert" |} ]
    else volumeMounts in
  let volumeMounts :=
    if secretSet ClientSecret cluster then
      volumeMounts ++
        [ {| vm_Name := "client-trusted-ca-certificate"; vm_ReadOnly := true;
             vm_MountPath := "/etc/etcd/pki/client/ca" |} ]
    else volumeMounts in
  volumeMounts.

Definition generateEtcdCommand : list string := [ "etcd" ].

(** One turn of the loop over [cluster.Spec.Options]. *)
Definition appendOption (args : list string) (entry : string * string) : list string :=
  let '(name, value) := entry in
  let flag := "--" +:+ name in
  if bool_decide (String.length value = 0%nat) then args ++ [ flag ]
  else args ++ [ flag +:+ "=" +:+ value ].

(** [options] is the order in which the loop visits [cluster.Spec.Options]. *)
Definition generateEtcdArgs (options : list (string * string)) (cluster : EtcdCluster)
  : list string :=
  let args := [] in
  let args := foldl appendOption args options in
  let peerTlsSettings := [ "--peer-auto-tls" ] in
  let peerTlsSettings :=
    if secretSet PeerSecret cluster then
      [ "--peer-trusted-ca-file=/etc/etcd/pki/peer/ca/ca.crt";
        "--peer-cert-file=/etc/etcd/pki/peer/cert/tls.crt";
        "--peer-key-file=/etc/etcd/pki/peer/cert/tls.key";
        "--peer-client-cert-auth" ]
    else peerTlsSettings in
  let serverTlsSettings := [] in
  let serverProtocol := "http" in
  let '(serverTlsSettings, serverProtocol) :=
    if secretSet ServerSecret cluster then
      ( [ "--cert-file=/etc/etcd/pki/server/cert/tls.crt";
          "--key-file=/etc/etcd/pki/server/cert/tls.key" ],
        "https" )
    else (serverTlsSettings, serverProtocol) in
  let clientTlsSettings := [] in
  let clientTlsSettings :=
    if secretSet ClientSecret cluster then
      [ "--trusted-ca-file=/etc/etcd/pki/client/ca/ca.crt";
        "--client-cert-auth" ]
    else clientTlsSettings in
  let args :=
    args ++
      [ "--name=$(POD_NAME)";
        "--listen-metrics-urls=http://0.0.0.0:2381";
        "--listen-peer-urls=https://0.0.0.0:2380";
        "--listen-client-urls=" +:+ serverProtocol +:+ "://0.0.0.0:2379";
        "--initial-advertise-peer-urls=https://$(POD_NAME)." +:+ Name cluster
          +:+ ".$(POD_NAMESPACE).svc:2380";
        "--data-dir=/var/run/etcd/default.etcd";
        "--advertise-client-urls=" +:+ serverProtocol +:+ "://$(POD_NAME)."
          +:+ Name cluster +:+ ".$(POD_NAMESPACE).svc:2379" ] in
  let args := args ++ peerTlsSettings in
  let args := args ++ serverTlsSettings in
  let args := args ++ clientTlsSettings in
  args.

Definition getStartupProbe : option Probe :=
  Some {| HTTPGet := Some {| Path := "/readyz?serializable=false";
                             Port := FromInt32 2381 |};
          PeriodSeconds := 5 |}.

Definition getReadinessProbe : option Probe :=
  Some {| HTTPGet := Some {| Path := "/readyz"; Port := FromInt32 2381 |};
          PeriodSeconds := 5 |}.

Definition getLivenessProbe : option Probe :=
  Some {| HTTPGet := Some {| Path := "/livez"; Port := FromInt32 2381 |};
          PeriodSeconds := 5 |}.

Definition fieldRefEnv (name fieldPath : string) : EnvVar :=
  {| env_Name := name;
     env_ValueFrom := Some {| FieldRef := Some {| FieldPath := fieldPath |} |} |}.

Definition generateContainer (options : list (string * string)) (cluster : EtcdCluster)
  : Container :=
  let podEnv :=
    [ fieldRefEnv "POD_NAME" "metadata.name";
      fieldRefEnv "POD_NAMESPACE" "metadata.namespace" ] in
  let clusterStateConfigMapName := GetClusterStateConfigMapName cluster in
  {| c_Name := etcdContainerName;
     c_Image := DefaultEtcdImage;
     c_Command := generateEtcdCommand;
     c_Args := generateEtcdArgs options cluster;
     c_Ports :=
       [ {| port_Name := "peer"; port_ContainerPort := 2380 |};
         {| port_Name := "client"; port_ContainerPort := 2379 |} ];
     c_EnvFrom :=
       [ {| ConfigMapRef := Some {| cm_Name := clusterStateConfigMapName |} |} ];
     c_Env := podEnv;
     c_StartupProbe := getStartupProbe;
     c_LivenessProbe := getLivenessProbe;
     c_ReadinessProbe := getReadinessProbe;
     c_VolumeMounts := generateVolumeMounts cluster |}.

(** [NewLabelsBuilder().WithName().WithInstance(name).WithManagedBy()] *)
Definition clusterLabels (name : string) : gmap string string :=
  WithManagedBy (WithInstance name (WithName NewLabelsBuilder)).

(** The assignment [cluster.Spec.PodTemplate.Spec.Containers = containers],
    through the pointer [cluster]. *)
Definition setPodTemplateContainers
  (containers : option (list Container)) (cluster : EtcdCluster) : EtcdCluster :=
  let spec := Spec cluster in
  let podTemplate := PodTemplate_ spec in
  let podSpec := pt_Spec podTemplate in
  {| Name := Name cluster;
     Namespace := Namespace cluster;
     Spec :=
       {| Replicas := Replicas spec;
          Options := Options spec;
          PodTemplate_ :=
            {| pt_Labels := pt_Labels podTemplate;
               pt_Annotations := pt_Annotations podTemplate;
               pt_Spec :=
                 {| ps_Containers := containers;
                    ps_Volumes := ps_Volumes podSpec;
                    ps_Rest := ps_Rest podSpec |} |};
          Storage := Storage spec;
          Security := Security spec |} |}.

(** [metav1.ObjectMeta{Labels: labels}] *)
Definition labelledMeta (labels : gmap string string) : ObjectMeta :=
  {| om_Name := ""; om_Namespace := ""; om_Labels := Some labels;
     om_Annotations := None; om_OwnerReferences := [] |}.

(** The assignment [meta.Annotations = annotations]. *)
Definition setAnnotations
  (annotations : option (gmap string string)) (meta : ObjectMeta) : ObjectMeta :=
  {| om_Name := om_Name meta; om_Namespace := om_Namespace meta;
     om_Labels := om_Labels meta; om_Annotations := annotations;
     om_OwnerReferences := om_OwnerReferences meta |}.

(** One turn of the loop over [cluster.Spec.PodTemplate.Labels]:
    [podMetadata.Labels[key] = value]. *)
Definition putLabel (labels : gmap string string) (entry : string * string)
  : gmap string string :=
  let '(key, value) := entry in <[ key := value ]> labels.

(** [CreateOrUpdateStatefulSet] up to and including the call of
    [ctrl.SetControllerReference] (all of the function but its last
    statement): the StatefulSet it has built by then, or the error it
    returns, and the cluster as the writes through the pointer leave it.
    [labels] and [options] are the orders in which the two [range] loops
    visit [cluster.Spec.PodTemplate.Labels] and [cluster.Spec.Options].
    The log statement is left out. *)
Definition buildStatefulSet
  (labels options : list (string * string)) (cluster : EtcdCluster) (rscheme : Scheme)
  : EtcdCluster * result StatefulSet :=
  let podLabels := clusterLabels (Name cluster) in
  let podLabels :=
    match pt_Labels (PodTemplate_ (Spec cluster)) with
    | Some _ => foldl putLabel podLabels labels
    | None => podLabels
    end in
  let podMetadata := labelledMeta podLabels in
  let podMetadata :=
    match pt_Annotations (PodTemplate_ (Spec cluster)) with
    | Some annotations => setAnnotations (Some annotations) podMetadata
    | None => podMetadata
    end in
  let template := VolumeClaimTemplate (Storage (Spec cluster)) in
  let volumeClaimTemplates :=
    [ {| pvc_ObjectMeta :=
           {| om_Name := GetPVCName cluster; om_Namespace := "";
              om_Labels := vct_Labels template;
              om_Annotations := vct_Annotations template;
              om_OwnerReferences := [] |};
         pvc_Spec := vct_Spec template;
         pvc_Status := vct_Status template |} ] in
  let volumes := generateVolumes cluster in
  let basePodSpec :=
    {| ps_Containers := Some [ generateContainer options cluster ];
       ps_Volumes := Some volumes;
       ps_Rest := zeroPodSpecRest |} in
  let cluster :=
    match ps_Containers (pt_Spec (PodTemplate_ (Spec cluster))) with
    | None => setPodTemplateContainers (Some []) cluster
    | Some _ => cluster
    end in
  match StrategicMerge basePodSpec (pt_Spec (PodTemplate_ (Spec cluster))) with
  | Err err =>
      (cluster,
       Err ("cannot strategic-merge base podspec with podTemplate.spec: " +:+ err))
  | Ok finalPodSpec =>
      let statefulSet :=
        {| sts_ObjectMeta :=
             {| om_Name := Name cluster; om_Namespace := Namespace cluster;
                om_Labels := None; om_Annotations := None;
                om_OwnerReferences := [] |};
           sts_Spec :=
             {| sts_Replicas := Replicas (Spec cluster);
                sts_ServiceName := Name cluster;
                sts_PodManagementPolicy := ParallelPodManagement;
                sts_Selector :=
                  Some {| MatchLabels := clusterLabels (Name cluster) |};
                sts_Template :=
                  {| pts_ObjectMeta := podMetadata; pts_Spec := finalPodSpec |};
                sts_VolumeClaimTemplates := volumeClaimTemplates |} |} in
      match SetControllerReference cluster statefulSet rscheme with
      | Err err => (cluster, Err ("cannot set controller reference: " +:+ err))
      | Ok statefulSet => (cluster, Ok statefulSet)
      end
  end.

(** The cluster after the call, the object store after the call, and the
    returned error ([None] for [nil]). *)
Definition CreateOrUpdateStatefulSet
  (labels options : list (string * string))
  (ctx : Ctx) (cluster : EtcdCluster) (rclient : Client) (rscheme : Scheme)
  : EtcdCluster * Client * option error :=
  match buildStatefulSet labels options cluster rscheme with
  | (cluster, Err err) => (cluster, rclient, Some err)
  | (cluster, Ok statefulSet) =>
      let '(rclient, err) :=
        reconcileStatefulSet ctx rclient (Name cluster) statefulSet in
      (cluster, rclient, err)
  end.

End Factory.

(** ** Vocabulary of the properties *)

(** [arg] is the flag [name]: [--name] or [--name=value]. *)
Definition isFlag (name arg : string) : bool :=
  String.eqb arg ("--" +:+ name) || String.prefix ("--" +:+ name +:+ "=") arg.

Definition hasFlag (name : string) (args : list string) : bool :=
  existsb (isFlag name) args.

(** The explicit peer TLS flags: CA, certificate and key files, and the
    mandatory client-certificate check. *)
Definition hasExplicitPeerFlag (args : list string) : bool :=
  hasFlag "peer-trusted-ca-file" args || hasFlag "peer-cert-file" args
  || hasFlag "peer-key-file" args || hasFlag "peer-client-cert-auth" args.

(** The client-CA TLS flags. *)
Definition hasClientCAFlag (args : list string) : bool :=
  hasFlag "trusted-ca-file" args || hasFlag "client-cert-auth" args.

(** A probe that does an HTTP GET of [path] at the numbered [port] every
    [period]. *)
Definition httpGetProbe (path : string) (port period : Z) (probe : option Probe) : Prop :=
  probe =
    Some {| HTTPGet := Some {| Path := path; Port := FromInt32 port |};
            PeriodSeconds := period |}.

(** The names of the peer volumes and mounts. *)
Definition isPeerName (name : string) : bool :=
  String.eqb name "peer-trusted-ca-certificate" || String.eqb name "peer-certificate".

Section Vocabulary.
Context `{Payloads} `{!Collaborators}.

(** The arguments contributed by the loop over the options. *)
Definition userArgs (options : list (string * string)) : list string :=
  foldl appendOption [] options.

(** The argument of one option: [--name], or [--name=value] when the value
    is not empty. *)
Definition optionArg (entry : string * string) : string :=
  if bool_decide (String.length entry.2 = 0%nat) then "--" +:+ entry.1
  else "--" +:+ entry.1 +:+ "=" +:+ entry.2.

(** The arguments that follow them. *)
Definition generatedArgs (options : list (string * string)) (cluster : EtcdCluster)
  : list string :=
  drop (length options) (generateEtcdArgs options cluster).

Definition listenClientArg (scheme : string) : string :=
  "--listen-client-urls=" +:+ scheme +:+ "://0.0.0.0:2379".

Definition advertiseClientArg (scheme : string) (cluster : EtcdCluster) : string :=
  "--advertise-client-urls=" +:+ scheme +:+ "://$(POD_NAME)." +:+ Name cluster
    +:+ ".$(POD_NAMESPACE).svc:2379".

(** The client listen and advertise arguments are in the argument list with
    the given scheme, and they are the only arguments for these two flags
    after the user's. *)
Definition clientUrlsUse
  (scheme : string) (options : list (string * string)) (cluster : EtcdCluster) : Prop :=
  listenClientArg scheme ∈ generateEtcdArgs options cluster
  /\ advertiseClientArg scheme cluster ∈ generateEtcdArgs options cluster
  /\ forall arg, arg ∈ generatedArgs options cluster ->
       (isFlag "listen-client-urls" arg = true -> arg = listenClientArg scheme)
       /\ (isFlag "advertise-client-urls" arg = true ->
           arg = advertiseClientArg scheme cluster).

(** The names that volumes and mounts are expected to carry, in order. *)
Definition expectedNames (cluster : EtcdCluster) : list string :=
  [ "data" ]
  ++ (if decide (tlsField PeerSecret cluster = "") then []
      else [ "peer-trusted-ca-certificate"; "peer-certificate" ])
  ++ (if decide (tlsField ServerSecret cluster = "") then []
      else [ "server-certificate" ])
  ++ (if decide (tlsField ClientSecret cluster = "") then []
      else [ "client-trusted-ca-certificate" ]).

(** No secret reference of the security policy is set. *)
Definition noSecretSet (cluster : EtcdCluster) : Prop :=
  tlsField PeerTrustedCASecret cluster = "" /\ tlsField PeerSecret cluster = ""
  /\ tlsField ServerSecret cluster = ""
  /\ tlsField ClientTrustedCASecret cluster = "" /\ tlsField ClientSecret cluster = "".

(** The data volume over a claim. *)
Definition claimDataVolume (claimName : string) : Volume :=
  {| vol_Name := "data";
     vol_VolumeSource :=
       {| vs_EmptyDir := None;
          vs_PersistentVolumeClaim := Some {| ClaimName := claimName |};
          vs_Secret := None |} |}.

(** The data volume over an ephemeral directory. *)
Definition emptyDirDataVolume (emptyDir : EmptyDirVolumeSource) : Volume :=
  {| vol_Name := "data";
     vol_VolumeSource :=
       {| vs_EmptyDir := Some emptyDir; vs_PersistentVolumeClaim := None;
          vs_Secret := None |} |}.

(** Two containers that differ at most in the order of their arguments. *)
Definition sameUpToArgOrder (c1 c2 : Container) : Prop :=
  c_Name c1 = c_Name c2 /\ c_Image c1 = c_Image c2
  /\ c_Command c1 = c_Command c2 /\ c_Args c1 ≡ₚ c_Args c2
  /\ c_Ports c1 = c_Ports c2 /\ c_EnvFrom c1 = c_EnvFrom c2
  /\ c_Env c1 = c_Env c2 /\ c_StartupProbe c1 = c_StartupProbe c2
  /\ c_LivenessProbe c1 = c_LivenessProbe c2
  /\ c_ReadinessProbe c1 = c_ReadinessProbe c2
  /\ c_VolumeMounts c1 = c_VolumeMounts c2.

(** The value that [arg] gives to the flag [name]: what follows [--name=]. *)
Definition flagValue (name arg : string) : option string :=
  let start := "--" +:+ name +:+ "=" in
  if String.prefix start arg then
    Some (String.substring (String.length start)
            (String.length arg - String.length start)%nat arg)
  else None.

(** The flags whose value is a path inside the container. *)
Definition pathFlags : list string :=
  [ "data-dir"; "peer-trusted-ca-file"; "peer-cert-file"; "peer-key-file";
    "cert-file"; "key-file"; "trusted-ca-file" ].

(** [path] lies under the mount path of one of [mounts]. *)
Definition underMount (mounts : list VolumeMount) (path : string) : bool :=
  existsb (fun mount => String.prefix (vm_MountPath mount +:+ "/") path) mounts.

(** How many of the sources of a volume are set. *)
Definition sourceCount (source : VolumeSource) : nat :=
  ((if bool_decide (vs_EmptyDir source = None) then 0 else 1)
   + (if bool_decide (vs_PersistentVolumeClaim source = None) then 0 else 1)
   + (if bool_decide (vs_Secret source = None) then 0 else 1))%nat.

(** The secret a volume of the given name is expected to reference: none
    for the data volume, the field of the security policy for the others. *)
Definition secretOfVolume (name : string) (cluster : EtcdCluster) : option string :=
  if String.eqb name "peer-trusted-ca-certificate" then
    Some (tlsField PeerTrustedCASecret cluster)
  else if String.eqb name "peer-certificate" then
    Some (tlsField PeerSecret cluster)
  else if String.eqb name "server-certificate" then
    Some (tlsField ServerSecret cluster)
  else if String.eqb name "client-trusted-ca-certificate" then
    Some (tlsField ClientTrustedCASecret cluster)
  else None.

(** The pod specification that [CreateOrUpdateStatefulSet] generates before
    the merge. *)
Definition basePodSpecOf (options : list (string * string)) (cluster : EtcdCluster)
  : PodSpec :=
  {| ps_Containers := Some [ generateContainer options cluster ];
     ps_Volumes := Some (generateVolumes cluster);
     ps_Rest := zeroPodSpecRest |}.

(** The cluster with a nil list of override containers made empty. *)
Definition withContainers (cluster : EtcdCluster) : EtcdCluster :=
  match ps_Containers (pt_Spec (PodTemplate_ (Spec cluster))) with
  | None => setPodTemplateContainers (Some []) cluster
  | Some _ => cluster
  end.

(** The labels of the pod template once the loop over the user's labels,
    visiting them in the order [labels], has run. *)
Definition podLabelsOf (labels : list (string * string)) (cluster : EtcdCluster)
  : gmap string string :=
  match pt_Labels (PodTemplate_ (Spec cluster)) with
  | Some _ => foldl putLabel (clusterLabels (Name cluster)) labels
  | None => clusterLabels (Name cluster)
  end.

(** The StatefulSet assembled around a merged pod specification, as it is
    when the owner reference is about to be set. *)
Definition assembledStatefulSet
  (labels : list (string * string)) (cluster : EtcdCluster) (finalPodSpec : PodSpec)
  : StatefulSet :=
  {| sts_ObjectMeta :=
       {| om_Name := Name cluster; om_Namespace := Namespace cluster;
          om_Labels := None; om_Annotations := None; om_OwnerReferences := [] |};
     sts_Spec :=
       {| sts_Replicas := Replicas (Spec cluster);
          sts_ServiceName := Name cluster;
          sts_PodManagementPolicy := ParallelPodManagement;
          sts_Selector := Some {| MatchLabels := clusterLabels (Name cluster) |};
          sts_Template :=
            {| pts_ObjectMeta :=
                 {| om_Name := ""; om_Namespace := "";
                    om_Labels := Some (podLabelsOf labels cluster);
                    om_Annotations := pt_Annotations (PodTemplate_ (Spec cluster));
                    om_OwnerReferences := [] |};
               pts_Spec := finalPodSpec |};
          sts_VolumeClaimTemplates :=
            [ {| pvc_ObjectMeta :=
                   {| om_Name := GetPVCName cluster; om_Namespace := "";
                      om_Labels :=
                        vct_Labels (VolumeClaimTemplate (Storage (Spec cluster)));
                      om_Annotations :=
                        vct_Annotations
                          (VolumeClaimTemplate (Storage (Spec cluster)));
                      om_OwnerReferences := [] |};
                 pvc_Spec := vct_Spec (VolumeClaimTemplate (Storage (Spec cluster)));
                 pvc_Status :=
                   vct_Status (VolumeClaimTemplate (Storage (Spec cluster))) |} ] |} |}.

(** What the construction returns, step by step: the error of the merge of
    the generated pod specification with the override, or the error of the
    setting of the owner reference on the assembled StatefulSet, each after
    its prefix, or the StatefulSet with the owner set. *)
Definition constructionResult
  (labels options : list (string * string)) (cluster : EtcdCluster) (rscheme : Scheme)
  : result StatefulSet :=
  match StrategicMerge (basePodSpecOf options cluster)
          (pt_Spec (PodTemplate_ (Spec (withContainers cluster)))) with
  | Err cause =>
      Err ("cannot strategic-merge base podspec with podTemplate.spec: " +:+ cause)
  | Ok finalPodSpec =>
      match SetControllerReference (withContainers cluster)
              (assembledStatefulSet labels cluster finalPodSpec) rscheme with
      | Err cause => Err ("cannot set controller reference: " +:+ cause)
      | Ok statefulSet => Ok statefulSet
      end
  end.

End Vocabulary.

(** ** Concrete clusters

    Stand-ins for the payloads and the collaborators, to run the definitions
    on concrete clusters: the merge keeps the baseline, the owner reference
    is always accepted, the store accepts every object. *)
Module Sample.

Definition payloads : Payloads :=
  {| PersistentVolumeClaimSpec := unit; PersistentVolumeClaimStatus := unit;
     PodSpecRest := unit; zeroPodSpecRest := tt; OwnerReference := string;
     Scheme := unit; Ctx := unit; Client := unit |}.

#[local] Existing Instance payloads.

Definition collaborators : Collaborators :=
  {| DefaultEtcdImage := "quay.io/coreos/etcd:v3.5.12";
     GetPVCName := fun _ => "data";
     GetClusterStateConfigMapName := fun cluster => Name cluster +:+ "-cluster-state";
     NewLabelsBuilder := ∅;
     WithName := insert "app.kubernetes.io/name" "etcd";
     WithInstance := insert "app.kubernetes.io/instance";
     WithManagedBy := insert "app.kubernetes.io/managed-by" "etcd-operator";
     StrategicMerge := fun base _ => Ok base;
     SetControllerReference := fun _ statefulSet _ => Ok statefulSet;
     reconcileStatefulSet := fun _ rclient _ _ => (rclient, None) |}.

Definition ctx : Ctx := tt.

Definition store : Client := tt.

Definition scheme : Scheme := tt.

Definition tls (peerCA peer server clientCA client : string) : option SecuritySpec :=
  Some {| TLS := {| PeerTrustedCASecret := peerCA; PeerSecret := peer;
                    ServerSecret := server; ClientTrustedCASecret := clientCA;
                    ClientSecret := client |} |}.

(** A cluster named [etcd] in namespace [default] with an empty pod
    template and an empty volume-claim template. *)
Definition cluster
  (emptyDir : option EmptyDirVolumeSource) (options : gmap string string)
  (security : option SecuritySpec) : EtcdCluster :=
  {| Name := "etcd";
     Namespace := "default";
     Spec :=
       {| Replicas := Some 3;
          Options := options;
          PodTemplate_ :=
            {| pt_Labels := None; pt_Annotations := None;
               pt_Spec := {| ps_Containers := None; ps_Volumes := None;
                             ps_Rest := tt |} |};
          Storage :=
            {| EmptyDir := emptyDir;
               VolumeClaimTemplate :=
                 {| vct_Labels := None; vct_Annotations := None;
                    vct_Spec := tt; vct_Status := tt |} |};
          Security := security |} |}.

Definition memory : EmptyDirVolumeSource :=
  {| Medium := "Memory"; SizeLimit := None |}.

(** Neither storage option, no security policy, no options. *)
Definition bare : EtcdCluster := cluster None ∅ None.

(** Ephemeral storage, no security policy. *)
Definition ephemeral : EtcdCluster := cluster (Some memory) ∅ None.

(** Every secret set. *)
Definition secured : EtcdCluster :=
  cluster None ∅ (tls "peer-ca" "peer-tls" "server-tls" "client-ca" "client-tls").

(** Every secret set, under other names, with ephemeral storage. *)
Definition rotated : EtcdCluster :=
  cluster (Some memory) ∅
    (tls "peer-ca-2" "peer-tls-2" "server-tls-2" "client-ca-2" "client-tls-2").

(** Only the client trusted-CA secret set. *)
Definition clientCAOnly : EtcdCluster := cluster None ∅ (tls "" "" "" "client-ca" "").

(** Only the client certificate secret set. *)
Definition clientCertOnly : EtcdCluster := cluster None ∅ (tls "" "" "" "" "client-tls").

(** The peer secret set, its trusted-CA secret empty. *)
Definition peerWithoutCA : EtcdCluster := cluster None ∅ (tls "" "peer-tls" "" "" "").

(** The peer trusted-CA secret set, the peer secret empty. *)
Definition peerCAOnly : EtcdCluster := cluster None ∅ (tls "peer-ca" "" "" "" "").

(** The peer secret set, and the user asks for [--peer-auto-tls]. *)
Definition autoTlsOption : EtcdCluster :=
  cluster None {[ "peer-auto-tls" := "" ]} (tls "peer-ca" "peer-tls" "" "" "").

(** No peer secret, and the user passes a peer certificate file. *)
Definition peerCertOption : EtcdCluster :=
  cluster None {[ "peer-cert-file" := "/tmp/peer.crt" ]} None.

Definition podLabels : list (string * string) :=
  [ ("team", "storage"); ("tier", "db") ].

Definition flags : list (string * string) :=
  [ ("quota-backend-bytes", "8589934592"); ("debug", "") ].

(** Ephemeral storage, two options, two labels on the pod template. *)
Definition labelled : EtcdCluster :=
  {| Name := "etcd";
     Namespace := "default";
     Spec :=
       {| Replicas := Some 3;
          Options := list_to_map flags;
          PodTemplate_ :=
            {| pt_Labels := Some (list_to_map podLabels); pt_Annotations := None;
               pt_Spec := {| ps_Containers := Some []; ps_Volumes := None;
                             ps_Rest := tt |} |};
          Storage :=
            {| EmptyDir := Some memory;
               VolumeClaimTemplate :=
                 {| vct_Labels := None; vct_Annotations := None;
                    vct_Spec := tt; vct_Status := tt |} |};
          Security := None |} |}.

End Sample.

(** ** Properties *)

Section Properties.
Context `{Payloads} `{!Collaborators}.

Implicit Types (cluster : EtcdCluster) (options labels : list (string * string)).

(** *** The security guards *)

Lemma secretSet_true field cluster :
  secretSet field cluster = true <-> tlsField field cluster <> "".
Proof.
  unfold secretSet, tlsField.
  destruct (Security (Spec cluster)) as [security|].
  - apply bool_decide_eq_true.
  - split; [discriminate | congruence].
Qed.

Lemma secretSet_false field cluster :
  secretSet field cluster = false <-> tlsField field cluster = "".
Proof.
  unfold secretSet, tlsField.
  destruct (Security (Spec cluster)) as [security|].
  - rewrite bool_decide_eq_false. split; [apply dec_stable | auto].
  - split; reflexivity.
Qed.

Lemma secretSet_decide field cluster {A} (x y : A) :
  (if decide (tlsField field cluster = "") then x else y)
  = if secretSet field cluster then y else x.
Proof.
  destruct (secretSet field cluster) eqn:E.
  - apply secretSet_true in E. destruct (decide _); congruence.
  - apply secretSet_false in E. destruct (decide _); congruence.
Qed.

(** *** The shape of the argument list *)

Lemma foldl_appendOption options (args : list string) :
  foldl appendOption args options = args ++ userArgs options.
Proof.
  unfold userArgs. revert args.
  induction options as [|[name value] options IH] using rev_ind; intros args.
  - simpl. by rewrite app_nil_r.
  - rewrite !foldl_app. simpl. rewrite (IH args), (IH []).
    destruct (bool_decide _); by rewrite <- !app_assoc.
Qed.

Lemma length_userArgs options : length (userArgs options) = length options.
Proof.
  unfold userArgs.
  induction options as [|[name value] options IH] using rev_ind; [done|].
  rewrite foldl_app. simpl.
  destruct (bool_decide _); rewrite !length_app, IH; done.
Qed.

(** The arguments after the user's: the fixed endpoint flags, then the peer,
    server and client TLS settings. *)
Lemma generatedArgs_eq options cluster :
  generatedArgs options cluster =
    let scheme := if secretSet ServerSecret cluster then "https" else "http" in
    [ "--name=$(POD_NAME)";
      "--listen-metrics-urls=http://0.0.0.0:2381";
      "--listen-peer-urls=https://0.0.0.0:2380";
      listenClientArg scheme;
      "--initial-advertise-peer-urls=https://$(POD_NAME)." +:+ Name cluster
        +:+ ".$(POD_NAMESPACE).svc:2380";
      "--data-dir=/var/run/etcd/default.etcd";
      advertiseClientArg scheme cluster ]
    ++ (if secretSet PeerSecret cluster then
          [ "--peer-trusted-ca-file=/etc/etcd/pki/peer/ca/ca.crt";
            "--peer-cert-file=/etc/etcd/pki/peer/cert/tls.crt";
            "--peer-key-file=/etc/etcd/pki/peer/cert/tls.key";
            "--peer-client-cert-auth" ]
        else [ "--peer-auto-tls" ])
    ++ (if secretSet ServerSecret cluster then
          [ "--cert-file=/etc/etcd/pki/server/cert/tls.crt";
            "--key-file=/etc/etcd/pki/server/cert/tls.key" ]
        else [])
    ++ (if secretSet ClientSecret cluster then
          [ "--trusted-ca-file=/etc/etcd/pki/client/ca/ca.crt";
            "--client-cert-auth" ]
        else []).
Proof.
  unfold generatedArgs, generateEtcdArgs, listenClientArg, advertiseClientArg.
  rewrite foldl_appendOption. simpl app at 1.
  destruct (secretSet PeerSecret cluster), (secretSet ServerSecret cluster),
    (secretSet ClientSecret cluster);
    cbv zeta; rewrite <- !app_assoc, <- (length_userArgs options), drop_app_length;
    reflexivity.
Qed.

Lemma generateEtcdArgs_split options cluster :
  generateEtcdArgs options cluster
  = userArgs options ++ generatedArgs options cluster.
Proof.
  unfold generatedArgs.
  rewrite <- (length_userArgs options).
  assert (E : take (length (userArgs options)) (generateEtcdArgs options cluster)
              = userArgs options).
  { unfold generateEtcdArgs. rewrite foldl_appendOption. simpl app at 1.
    destruct (secretSet PeerSecret cluster), (secretSet ServerSecret cluster),
      (secretSet ClientSecret cluster);
      cbv zeta; rewrite <- !app_assoc; apply take_app_length. }
  rewrite <- E at 1. apply eq_sym, take_drop.
Qed.

(** *** Probes *)

(** C2 (as the code has it): for every cluster the startup probe of the
    generated container does an HTTP GET of [/readyz?serializable=false] at
    port 2381, the readiness probe an HTTP GET of [/readyz] at port 2381,
    the liveness probe an HTTP GET of [/livez] at port 2381, and each of the
    three has a period of 5. *)
Theorem container_probes options cluster :
  let container := generateContainer options cluster in
  httpGetProbe "/readyz?serializable=false" 2381 5 (c_StartupProbe container)
  /\ httpGetProbe "/readyz" 2381 5 (c_ReadinessProbe container)
  /\ httpGetProbe "/livez" 2381 5 (c_LivenessProbe container).
Proof. repeat split. Qed.

(** *** Volumes and mounts *)

(** C5: for every cluster, whichever of the peer, server and client secrets
    are set, the volumes and the mounts are equally many, carry the same
    names in the same order, and that order is: [data], then the peer CA and
    the peer certificate (when the peer secret is set), then the server
    certificate (when the server secret is set), then the client CA (when
    the client secret is set). *)
Theorem volumes_mounts_paired cluster :
  length (generateVolumes cluster) = length (generateVolumeMounts cluster)
  /\ vol_Name <$> generateVolumes cluster = vm_Name <$> generateVolumeMounts cluster
  /\ vol_Name <$> generateVolumes cluster = expectedNames cluster.
Proof.
  unfold expectedNames. rewrite !secretSet_decide.
  unfold generateVolumes, generateVolumeMounts.
  destruct (secretSet PeerSecret cluster), (secretSet ServerSecret cluster),
    (secretSet ClientSecret cluster); repeat split.
Qed.

(** *** Arguments *)

Lemma generated_in_args options cluster (arg : string) :
  arg ∈ generatedArgs options cluster -> arg ∈ generateEtcdArgs options cluster.
Proof. rewrite generateEtcdArgs_split, elem_of_app. auto. Qed.

Lemma clientUrlsUse_scheme options cluster :
  clientUrlsUse (if secretSet ServerSecret cluster then "https" else "http")
    options cluster.
Proof.
  unfold clientUrlsUse.
  pose proof (generatedArgs_eq options cluster) as E. cbv zeta in E.
  set (scheme := if secretSet ServerSecret cluster then "https" else "http") in *.
  split; [|split].
  - apply generated_in_args. rewrite E. set_solver.
  - apply generated_in_args. rewrite E. set_solver.
  - intros arg Harg. rewrite E in Harg. clear E.
    unfold listenClientArg, advertiseClientArg, scheme in *.
    destruct (secretSet PeerSecret cluster), (secretSet ServerSecret cluster),
      (secretSet ClientSecret cluster);
      simpl in Harg; rewrite ?elem_of_cons, elem_of_nil in Harg;
      repeat (destruct Harg as [->|Harg]); try contradiction;
      split; intros Hflag; first [reflexivity | vm_compute in Hflag; discriminate Hflag].
Qed.

(** C3: for every cluster, if the server secret is set both the
    [--listen-client-urls] and the [--advertise-client-urls] argument use
    [https], and if it is not set both use [http]; the two never differ in
    scheme. *)
Theorem client_scheme_coupled options cluster :
  (tlsField ServerSecret cluster <> "" -> clientUrlsUse "https" options cluster)
  /\ (tlsField ServerSecret cluster = "" -> clientUrlsUse "http" options cluster).
Proof.
  pose proof (clientUrlsUse_scheme options cluster) as U.
  split; intros E.
  - apply secretSet_true in E. by rewrite E in U.
  - apply secretSet_false in E. by rewrite E in U.
Qed.

(** Goals about the arguments after the user's, by cases on the three
    guards. *)
Ltac by_guards options cluster :=
  rewrite ?(generatedArgs_eq options cluster); cbv zeta;
  destruct (secretSet PeerSecret cluster) eqn:?,
    (secretSet ServerSecret cluster) eqn:?,
    (secretSet ClientSecret cluster) eqn:?;
  try discriminate; simpl app.

(** C4 (as the code has it): for every cluster the argument list is the
    user's flags followed by the generated arguments.  If the peer secret is
    not set, the list contains [--peer-auto-tls] and the generated arguments
    contain no explicit peer flag; if it is set, the list contains the peer
    CA, certificate and key file flags and [--peer-client-cert-auth], and
    the generated arguments do not contain [--peer-auto-tls]. *)
Theorem peer_flags_by_peer_secret options cluster :
  let args := generateEtcdArgs options cluster in
  let generated := generatedArgs options cluster in
  args = userArgs options ++ generated
  /\ (tlsField PeerSecret cluster = "" ->
        "--peer-auto-tls" ∈ args /\ hasExplicitPeerFlag generated = false)
  /\ (tlsField PeerSecret cluster <> "" ->
        "--peer-trusted-ca-file=/etc/etcd/pki/peer/ca/ca.crt" ∈ args
        /\ "--peer-cert-file=/etc/etcd/pki/peer/cert/tls.crt" ∈ args
        /\ "--peer-key-file=/etc/etcd/pki/peer/cert/tls.key" ∈ args
        /\ "--peer-client-cert-auth" ∈ args
        /\ hasFlag "peer-auto-tls" generated = false).
Proof.
  cbv zeta. split; [apply generateEtcdArgs_split|].
  split; intros E.
  - apply secretSet_false in E. split.
    + apply generated_in_args. by_guards options cluster; set_solver.
    + by_guards options cluster; reflexivity.
  - apply secretSet_true in E.
    repeat split; try apply generated_in_args;
      by_guards options cluster; first [reflexivity | set_solver].
Qed.

(** C6 (as the code has it): for every cluster, the generated arguments
    contain the client-CA flags [--trusted-ca-file] and [--client-cert-auth]
    if and only if the security policy is there and its [ClientSecret] is
    not empty; the [ClientTrustedCASecret] reference plays no part.  When
    [ClientSecret] is set both flags are in the argument list, whatever the
    other secrets are; when it is not, neither is among the generated
    arguments. *)
Theorem client_ca_flags_by_client_secret options cluster :
  let args := generateEtcdArgs options cluster in
  let generated := generatedArgs options cluster in
  (hasFlag "trusted-ca-file" generated = true
   /\ hasFlag "client-cert-auth" generated = true
   <-> tlsField ClientSecret cluster <> "")
  /\ (tlsField ClientSecret cluster <> "" ->
        "--trusted-ca-file=/etc/etcd/pki/client/ca/ca.crt" ∈ args
        /\ "--client-cert-auth" ∈ args)
  /\ (tlsField ClientSecret cluster = "" -> hasClientCAFlag generated = false).
Proof.
  cbv zeta. split; [split|split].
  - intros [E _]. apply secretSet_true.
    destruct (secretSet ClientSecret cluster) eqn:G; [done|].
    revert E. by_guards options cluster; discriminate.
  - intros E. apply secretSet_true in E.
    split; by_guards options cluster; reflexivity.
  - intros E. apply secretSet_true in E.
    split; apply generated_in_args; by_guards options cluster; set_solver.
  - intros E. apply secretSet_false in E.
    by_guards options cluster; reflexivity.
Qed.

(** C7 (as the code has it): for every cluster with ephemeral storage and no
    secret set, the volumes are exactly the data volume over the ephemeral
    source, the argument list contains [--peer-auto-tls], the client listen
    and advertise arguments use [http], and the generated container has
    exactly one volume mount, the one of the data volume. *)
Theorem ephemeral_without_secrets options cluster (emptyDir : EmptyDirVolumeSource) :
  EmptyDir (Storage (Spec cluster)) = Some emptyDir ->
  noSecretSet cluster ->
  generateVolumes cluster = [ emptyDirDataVolume emptyDir ]
  /\ "--peer-auto-tls" ∈ generateEtcdArgs options cluster
  /\ clientUrlsUse "http" options cluster
  /\ length (c_VolumeMounts (generateContainer options cluster)) = 1%nat
  /\ vm_Name <$> c_VolumeMounts (generateContainer options cluster) = [ "data" ].
Proof.
  intros Hdir (_ & Hpeer & Hserver & _ & Hclient).
  apply secretSet_false in Hpeer, Hserver, Hclient.
  pose proof (clientUrlsUse_scheme options cluster) as Hscheme.
  rewrite Hserver in Hscheme.
  change (c_VolumeMounts (generateContainer options cluster))
    with (generateVolumeMounts cluster).
  unfold generateVolumes, generateVolumeMounts.
  rewrite Hdir, Hpeer, Hserver, Hclient.
  split; [reflexivity|].
  split; [apply generated_in_args; rewrite generatedArgs_eq, Hpeer; set_solver|].
  split; [exact Hscheme|].
  split; reflexivity.
Qed.

(** *** Peer material *)

(** C10 (as the code has it): the peer volumes, the peer mounts and the
    explicit peer flags depend on the peer secret alone.  When the security
    policy is there with a non-empty [PeerSecret], the CA volume and the
    certificate volume follow the data volume as a pair, the CA volume
    taking its secret name from [PeerTrustedCASecret] as it is (empty or
    not), the two mounts follow the data mount as a pair, and the four
    explicit peer flags are in the argument list.  When the peer secret is
    not set, whatever [PeerTrustedCASecret] is, no volume and no mount has a
    peer name and the generated arguments contain no explicit peer flag. *)
Theorem peer_material_by_peer_secret options cluster :
  (forall security, Security (Spec cluster) = Some security ->
     PeerSecret (TLS security) <> "" ->
     (exists data rest,
        generateVolumes cluster =
          data
          :: secretVolume "peer-trusted-ca-certificate"
               (PeerTrustedCASecret (TLS security))
          :: secretVolume "peer-certificate" (PeerSecret (TLS security))
          :: rest
        /\ vol_Name data = "data"
        /\ Forall (fun volume => isPeerName (vol_Name volume) = false) rest)
     /\ (exists data rest,
          generateVolumeMounts cluster =
            data
            :: {| vm_Name := "peer-trusted-ca-certificate"; vm_ReadOnly := true;
                  vm_MountPath := "/etc/etcd/pki/peer/ca" |}
            :: {| vm_Name := "peer-certificate"; vm_ReadOnly := true;
                  vm_MountPath := "/etc/etcd/pki/peer/cert" |}
            :: rest
          /\ vm_Name data = "data"
          /\ Forall (fun mount => isPeerName (vm_Name mount) = false) rest)
     /\ Forall (fun arg => arg ∈ generateEtcdArgs options cluster)
          [ "--peer-trusted-ca-file=/etc/etcd/pki/peer/ca/ca.crt";
            "--peer-cert-file=/etc/etcd/pki/peer/cert/tls.crt";
            "--peer-key-file=/etc/etcd/pki/peer/cert/tls.key";
            "--peer-client-cert-auth" ])
  /\ (tlsField PeerSecret cluster = "" ->
        Forall (fun volume => isPeerName (vol_Name volume) = false)
          (generateVolumes cluster)
        /\ Forall (fun mount => isPeerName (vm_Name mount) = false)
             (generateVolumeMounts cluster)
        /\ hasExplicitPeerFlag (generatedArgs options cluster) = false).
Proof.
  split.
  - intros security Hsec Hpeer.
    assert (E : secretSet PeerSecret cluster = true)
      by (apply secretSet_true; unfold tlsField; by rewrite Hsec).
    split; [|split].
    + assert (F : forall field, tlsField field cluster = field (TLS security))
        by (intros field; unfold tlsField; by rewrite Hsec).
      unfold generateVolumes. rewrite E, !F.
      destruct (secretSet ServerSecret cluster), (secretSet ClientSecret cluster);
        simpl; eexists _, _; (split; [reflexivity|]);
        (split; [reflexivity|]); repeat constructor.
    + unfold generateVolumeMounts. rewrite E.
      destruct (secretSet ServerSecret cluster), (secretSet ClientSecret cluster);
        simpl; eexists _, _; (split; [reflexivity|]);
        (split; [reflexivity|]); repeat constructor.
    + repeat constructor; apply generated_in_args;
        rewrite generatedArgs_eq, E; set_solver.
  - intros E. apply secretSet_false in E. split; [|split].
    + unfold generateVolumes. rewrite E.
      destruct (EmptyDir _), (secretSet ServerSecret cluster),
        (secretSet ClientSecret cluster); repeat constructor.
    + unfold generateVolumeMounts. rewrite E.
      destruct (secretSet ServerSecret cluster), (secretSet ClientSecret cluster);
        repeat constructor.
    + by_guards options cluster; reflexivity.
Qed.

(** *** Storage *)

(** The construction, step by step. *)
Lemma buildStatefulSet_result labels options cluster (rscheme : Scheme) :
  buildStatefulSet labels options cluster rscheme
  = (withContainers cluster, constructionResult labels options cluster rscheme).
Proof.
  unfold buildStatefulSet, constructionResult.
  fold (withContainers cluster). fold (basePodSpecOf options cluster).
  assert (Hname : Name (withContainers cluster) = Name cluster)
    by (unfold withContainers; by destruct (ps_Containers _)).
  assert (Hspace : Namespace (withContainers cluster) = Namespace cluster)
    by (unfold withContainers; by destruct (ps_Containers _)).
  assert (Hreplicas : Replicas (Spec (withContainers cluster)) = Replicas (Spec cluster))
    by (unfold withContainers; by destruct (ps_Containers _)).
  rewrite Hname, Hspace, Hreplicas.
  destruct (StrategicMerge _ _) as [finalPodSpec|cause]; [|reflexivity].
  unfold assembledStatefulSet, podLabelsOf.
  destruct (pt_Labels (PodTemplate_ (Spec cluster))),
    (pt_Annotations (PodTemplate_ (Spec cluster)));
    simpl; by destruct (SetControllerReference _ _ _).
Qed.

(** C1 (as the code has it): for every cluster without the ephemeral
    option, the volume-claim template set or not, no storage check is made:
    the data volume is over the claim named by [GetPVCName], the generated
    pod specification carries it, and the StatefulSet is built unless the
    merge of the pod specs or the setting of the owner reference fails, in
    which case that error is returned, wrapped.  The result is the error of
    the merge of the generated pod specification with the override, after
    its prefix; else the error of the owner reference on the assembled
    StatefulSet, after its prefix; else that StatefulSet with its owner. *)
Theorem no_storage_check labels options cluster (rscheme : Scheme) :
  EmptyDir (Storage (Spec cluster)) = None ->
  (exists rest,
     generateVolumes cluster = claimDataVolume (GetPVCName cluster) :: rest
     /\ ps_Volumes (basePodSpecOf options cluster)
        = Some (claimDataVolume (GetPVCName cluster) :: rest))
  /\ (buildStatefulSet labels options cluster rscheme).2
     = match StrategicMerge (basePodSpecOf options cluster)
               (pt_Spec (PodTemplate_ (Spec (withContainers cluster)))) with
       | Err cause =>
           Err ("cannot strategic-merge base podspec with podTemplate.spec: "
                +:+ cause)
       | Ok finalPodSpec =>
           match SetControllerReference (withContainers cluster)
                   (assembledStatefulSet labels cluster finalPodSpec) rscheme with
           | Err cause => Err ("cannot set controller reference: " +:+ cause)
           | Ok statefulSet => Ok statefulSet
           end
       end.
Proof.
  intros Hdir. split.
  - unfold basePodSpecOf, generateVolumes. rewrite Hdir.
    destruct (secretSet PeerSecret cluster), (secretSet ServerSecret cluster),
      (secretSet ClientSecret cluster); simpl; eexists; split; reflexivity.
  - by rewrite buildStatefulSet_result.
Qed.

(** *** The cluster after the call *)

Lemma buildStatefulSet_cluster labels options cluster (rscheme : Scheme) :
  (buildStatefulSet labels options cluster rscheme).1
  = match ps_Containers (pt_Spec (PodTemplate_ (Spec cluster))) with
    | None => setPodTemplateContainers (Some []) cluster
    | Some _ => cluster
    end.
Proof.
  unfold buildStatefulSet.
  destruct (StrategicMerge _ _); [destruct (SetControllerReference _ _ _)|];
    reflexivity.
Qed.

Lemma CreateOrUpdateStatefulSet_cluster
  labels options (ctx : Ctx) cluster (rclient : Client) (rscheme : Scheme) :
  (CreateOrUpdateStatefulSet labels options ctx cluster rclient rscheme).1.1
  = (buildStatefulSet labels options cluster rscheme).1.
Proof.
  unfold CreateOrUpdateStatefulSet.
  destruct (buildStatefulSet labels options cluster rscheme) as [after [sts|err]];
    [|reflexivity].
  by destruct (reconcileStatefulSet _ _ _ _).
Qed.

(** C8 (as the code has it): for every cluster, the call leaves every field
    of the cluster as it was except [Spec.PodTemplate.Spec.Containers]: a
    nil list of containers becomes an empty one, and a list that is not nil
    stays; in the latter case the whole cluster is unchanged. *)
Theorem cluster_after_call
  labels options (ctx : Ctx) cluster (rclient : Client) (rscheme : Scheme) :
  let after :=
    (CreateOrUpdateStatefulSet labels options ctx cluster rclient rscheme).1.1 in
  let podSpec c := pt_Spec (PodTemplate_ (Spec c)) in
  Name after = Name cluster
  /\ Namespace after = Namespace cluster
  /\ Replicas (Spec after) = Replicas (Spec cluster)
  /\ Options (Spec after) = Options (Spec cluster)
  /\ Storage (Spec after) = Storage (Spec cluster)
  /\ Security (Spec after) = Security (Spec cluster)
  /\ pt_Labels (PodTemplate_ (Spec after)) = pt_Labels (PodTemplate_ (Spec cluster))
  /\ pt_Annotations (PodTemplate_ (Spec after))
     = pt_Annotations (PodTemplate_ (Spec cluster))
  /\ ps_Volumes (podSpec after) = ps_Volumes (podSpec cluster)
  /\ ps_Rest (podSpec after) = ps_Rest (podSpec cluster)
  /\ ps_Containers (podSpec after)
     = Some (default [] (ps_Containers (podSpec cluster)))
  /\ (ps_Containers (podSpec cluster) <> None -> after = cluster).
Proof.
  cbv zeta.
  rewrite CreateOrUpdateStatefulSet_cluster, buildStatefulSet_cluster.
  destruct (ps_Containers (pt_Spec (PodTemplate_ (Spec cluster)))) as [l|] eqn:E;
    simpl; rewrite ?E; repeat split; congruence.
Qed.

(** *** Determinism *)

Lemma userArgs_fmap options : userArgs options = optionArg <$> options.
Proof.
  unfold userArgs.
  induction options as [|[name value] options IH] using rev_ind; [done|].
  rewrite foldl_app, fmap_app, IH. unfold optionArg. simpl.
  by destruct (bool_decide _).
Qed.

Lemma generatedArgs_order options1 options2 cluster :
  generatedArgs options1 cluster = generatedArgs options2 cluster.
Proof. by rewrite !generatedArgs_eq. Qed.

Lemma generateEtcdArgs_Permutation options1 options2 cluster :
  options1 ≡ₚ options2 ->
  generateEtcdArgs options1 cluster ≡ₚ generateEtcdArgs options2 cluster.
Proof.
  intros P. rewrite !generateEtcdArgs_split, !userArgs_fmap.
  rewrite (generatedArgs_order options1 options2). by rewrite P.
Qed.

(** The loop over the labels of the pod template ends with these labels
    laid over the initial ones, in whatever order it visits them. *)
Lemma foldl_putLabel (base : gmap string string) labels :
  foldl putLabel base labels = list_to_map (reverse labels) ∪ base.
Proof.
  induction labels as [|[key value] labels IH] using rev_ind.
  - simpl. by rewrite (left_id_L ∅ (∪)).
  - rewrite foldl_app, reverse_app. simpl. rewrite IH.
    by rewrite insert_union_l.
Qed.

Lemma foldl_putLabel_range (base m : gmap string string) labels :
  rangeOf m labels -> foldl putLabel base labels = m ∪ base.
Proof.
  unfold rangeOf. intros P. rewrite foldl_putLabel. f_equal.
  rewrite <- (list_to_map_to_list m).
  apply list_to_map_proper.
  - rewrite reverse_Permutation, P. apply NoDup_fst_map_to_list.
  - by rewrite reverse_Permutation.
Qed.

(** C9: for a fixed cluster, two runs of the synthesis give the same
    result.  With the options visited in the same order both times (the
    labels of the pod template in any orders), the two runs return the same
    StatefulSet or the same error and leave the same cluster.  With the
    options visited in different orders, the pod labels are the same, and
    the generated containers (mounts, probes, ports, environment, image and
    command) differ at most in the order of their arguments, which are the
    same up to a permutation of the user's flags; the volumes are generated
    without any iteration. *)
Theorem synthesis_deterministic
  cluster (rscheme : Scheme) labels1 labels2 options1 options2 :
  rangeOf (entries (pt_Labels (PodTemplate_ (Spec cluster)))) labels1 ->
  rangeOf (entries (pt_Labels (PodTemplate_ (Spec cluster)))) labels2 ->
  rangeOf (Options (Spec cluster)) options1 ->
  rangeOf (Options (Spec cluster)) options2 ->
  (options1 = options2 ->
   buildStatefulSet labels1 options1 cluster rscheme
   = buildStatefulSet labels2 options2 cluster rscheme)
  /\ foldl putLabel (clusterLabels (Name cluster)) labels1
     = foldl putLabel (clusterLabels (Name cluster)) labels2
  /\ sameUpToArgOrder (generateContainer options1 cluster)
       (generateContainer options2 cluster)
  /\ userArgs options1 ≡ₚ userArgs options2
  /\ generatedArgs options1 cluster = generatedArgs options2 cluster.
Proof.
  intros L1 L2 O1 O2.
  assert (L : foldl putLabel (clusterLabels (Name cluster)) labels1
              = foldl putLabel (clusterLabels (Name cluster)) labels2)
    by (by rewrite (foldl_putLabel_range _ _ _ L1), (foldl_putLabel_range _ _ _ L2)).
  assert (P : options1 ≡ₚ options2)
    by (unfold rangeOf in *; by rewrite O1, O2).
  split; [|split; [exact L|split; [|split]]].
  - intros <-. unfold buildStatefulSet. by rewrite L.
  - unfold sameUpToArgOrder. simpl.
    repeat split; try reflexivity. by apply generateEtcdArgs_Permutation.
  - rewrite !userArgs_fmap. by rewrite P.
  - apply generatedArgs_order.
Qed.

End Properties.

(** ** The properties on concrete clusters *)

Section Examples.
#[local] Existing Instance Sample.payloads.
#[local] Existing Instance Sample.collaborators.

Lemma rangeOf_empty : rangeOf ∅ [].
Proof. unfold rangeOf. by rewrite map_to_list_empty. Qed.

Lemma rangeOf_singleton (key value : string) :
  rangeOf {[ key := value ]} [ (key, value) ].
Proof. unfold rangeOf. by rewrite map_to_list_singleton. Qed.

Lemma rangeOf_list_to_map (l order : list (string * string)) :
  NoDup l.*1 -> order ≡ₚ l -> rangeOf (list_to_map l) order.
Proof.
  unfold rangeOf. intros N P. by rewrite map_to_list_to_map.
Qed.

Lemma NoDup_podLabels : NoDup Sample.podLabels.*1.
Proof. apply (bool_decide_unpack _). by vm_compute. Qed.

Lemma NoDup_flags : NoDup Sample.flags.*1.
Proof. apply (bool_decide_unpack _). by vm_compute. Qed.

(** C1, as stated, fails: a cluster with neither storage option gets its
    data volume over a claim, and its StatefulSet is built. *)
Lemma storage_unset_builds :
  EmptyDir (Storage (Spec Sample.bare)) = None
  /\ VolumeClaimTemplate (Storage (Spec Sample.bare))
     = {| vct_Labels := None; vct_Annotations := None;
          vct_Spec := tt; vct_Status := tt |}
  /\ generateVolumes Sample.bare = [ claimDataVolume "data" ]
  /\ exists statefulSet,
       (buildStatefulSet [] [] Sample.bare Sample.scheme).2 = Ok statefulSet
       /\ ps_Volumes (pts_Spec (sts_Template (sts_Spec statefulSet)))
          = Some [ claimDataVolume "data" ].
Proof.
  repeat split. eexists. split; reflexivity.
Qed.

Lemma no_storage_check_witness :
  (exists rest,
     generateVolumes Sample.bare = claimDataVolume "data" :: rest
     /\ ps_Volumes (basePodSpecOf [] Sample.bare)
        = Some (claimDataVolume "data" :: rest))
  /\ (buildStatefulSet [] [] Sample.bare Sample.scheme).2
     = Ok (assembledStatefulSet [] Sample.bare (basePodSpecOf [] Sample.bare)).
Proof.
  destruct (no_storage_check [] [] Sample.bare Sample.scheme eq_refl) as [V B].
  split; [exact V | exact B].
Defined.

(** C2, as stated, fails: the readiness probe asks for [/readyz]. *)
Lemma readiness_probe_path :
  httpGetProbe "/readyz" 2381 5
    (c_ReadinessProbe (generateContainer [] Sample.bare))
  /\ ~ httpGetProbe "/readyz?serializable=false" 2381 5
        (c_ReadinessProbe (generateContainer [] Sample.bare)).
Proof. split; [reflexivity|]. unfold httpGetProbe. simpl. discriminate. Qed.

Lemma client_scheme_coupled_witness :
  clientUrlsUse "https" [] Sample.secured /\ clientUrlsUse "http" [] Sample.bare.
Proof.
  split.
  - apply (proj1 (client_scheme_coupled [] Sample.secured)). discriminate.
  - apply (proj2 (client_scheme_coupled [] Sample.bare)). reflexivity.
Defined.

(** C4, as stated, fails: with the peer secret set, a user option named
    [peer-auto-tls] puts [--peer-auto-tls] in the argument list. *)
Lemma user_peer_auto_tls :
  rangeOf (Options (Spec Sample.autoTlsOption)) [ ("peer-auto-tls", "") ]
  /\ tlsField PeerSecret Sample.autoTlsOption = "peer-tls"
  /\ generateEtcdArgs [ ("peer-auto-tls", "") ] Sample.autoTlsOption
     = [ "--peer-auto-tls";
         "--name=$(POD_NAME)";
         "--listen-metrics-urls=http://0.0.0.0:2381";
         "--listen-peer-urls=https://0.0.0.0:2380";
         "--listen-client-urls=http://0.0.0.0:2379";
         "--initial-advertise-peer-urls=https://$(POD_NAME).etcd.$(POD_NAMESPACE).svc:2380";
         "--data-dir=/var/run/etcd/default.etcd";
         "--advertise-client-urls=http://$(POD_NAME).etcd.$(POD_NAMESPACE).svc:2379";
         "--peer-trusted-ca-file=/etc/etcd/pki/peer/ca/ca.crt";
         "--peer-cert-file=/etc/etcd/pki/peer/cert/tls.crt";
         "--peer-key-file=/etc/etcd/pki/peer/cert/tls.key";
         "--peer-client-cert-auth" ]
  /\ hasFlag "peer-auto-tls"
       (generateEtcdArgs [ ("peer-auto-tls", "") ] Sample.autoTlsOption) = true.
Proof.
  split; [apply rangeOf_singleton|]. repeat split.
Qed.

Lemma peer_flags_by_peer_secret_witness :
  ("--peer-auto-tls" ∈ generateEtcdArgs [] Sample.bare
   /\ hasExplicitPeerFlag (generatedArgs [] Sample.bare) = false)
  /\ ("--peer-cert-file=/etc/etcd/pki/peer/cert/tls.crt"
        ∈ generateEtcdArgs [] Sample.secured
      /\ hasFlag "peer-auto-tls" (generatedArgs [] Sample.secured) = false).
Proof.
  split.
  - apply (proj1 (proj2 (peer_flags_by_peer_secret [] Sample.bare))). reflexivity.
  - destruct (proj2 (proj2 (peer_flags_by_peer_secret [] Sample.secured)))
      as (_ & Hcert & _ & _ & Hauto); [discriminate|].
    split; [exact Hcert | exact Hauto].
Defined.

(** C6, as stated, fails: with the client trusted-CA secret set and no
    other secret, no client-CA flag is generated. *)
Lemma client_ca_only_no_flags :
  rangeOf (Options (Spec Sample.clientCAOnly)) []
  /\ tlsField ClientTrustedCASecret Sample.clientCAOnly = "client-ca"
  /\ generateEtcdArgs [] Sample.clientCAOnly
     = [ "--name=$(POD_NAME)";
         "--listen-metrics-urls=http://0.0.0.0:2381";
         "--listen-peer-urls=https://0.0.0.0:2380";
         "--listen-client-urls=http://0.0.0.0:2379";
         "--initial-advertise-peer-urls=https://$(POD_NAME).etcd.$(POD_NAMESPACE).svc:2380";
         "--data-dir=/var/run/etcd/default.etcd";
         "--advertise-client-urls=http://$(POD_NAME).etcd.$(POD_NAMESPACE).svc:2379";
         "--peer-auto-tls" ]
  /\ hasClientCAFlag (generateEtcdArgs [] Sample.clientCAOnly) = false.
Proof.
  split; [apply rangeOf_empty|]. repeat split.
Qed.

Lemma client_ca_flags_by_client_secret_witness :
  ("--trusted-ca-file=/etc/etcd/pki/client/ca/ca.crt"
     ∈ generateEtcdArgs [] Sample.clientCertOnly
   /\ "--client-cert-auth" ∈ generateEtcdArgs [] Sample.clientCertOnly)
  /\ hasClientCAFlag (generatedArgs [] Sample.clientCAOnly) = false.
Proof.
  split.
  - apply (proj1 (proj2 (client_ca_flags_by_client_secret [] Sample.clientCertOnly))).
    discriminate.
  - apply (proj2 (proj2 (client_ca_flags_by_client_secret [] Sample.clientCAOnly))).
    reflexivity.
Defined.

(** C7, as stated, fails: the container of a cluster with ephemeral storage
    and no secret has one volume mount, not two. *)
Lemma ephemeral_one_mount :
  EmptyDir (Storage (Spec Sample.ephemeral)) = Some Sample.memory
  /\ noSecretSet Sample.ephemeral
  /\ c_VolumeMounts (generateContainer [] Sample.ephemeral)
     = [ {| vm_Name := "data"; vm_ReadOnly := false;
            vm_MountPath := "/var/run/etcd" |} ]
  /\ length (c_VolumeMounts (generateContainer [] Sample.ephemeral)) <> 2%nat.
Proof. repeat split. discriminate. Qed.

Lemma ephemeral_without_secrets_witness :
  generateVolumes Sample.ephemeral = [ emptyDirDataVolume Sample.memory ]
  /\ "--peer-auto-tls" ∈ generateEtcdArgs [] Sample.ephemeral
  /\ clientUrlsUse "http" [] Sample.ephemeral
  /\ length (c_VolumeMounts (generateContainer [] Sample.ephemeral)) = 1%nat
  /\ vm_Name <$> c_VolumeMounts (generateContainer [] Sample.ephemeral) = [ "data" ].
Proof.
  apply (ephemeral_without_secrets [] Sample.ephemeral Sample.memory).
  - reflexivity.
  - repeat split.
Defined.

(** C8, as stated, fails: the call replaces the nil list of containers of
    the pod template by an empty one. *)
Lemma containers_nil_to_empty :
  ps_Containers (pt_Spec (PodTemplate_ (Spec Sample.bare))) = None
  /\ ps_Containers
       (pt_Spec (PodTemplate_ (Spec
          (CreateOrUpdateStatefulSet [] [] Sample.ctx Sample.bare Sample.store Sample.scheme).1.1)))
     = Some []
  /\ (CreateOrUpdateStatefulSet [] [] Sample.ctx Sample.bare Sample.store Sample.scheme).1.1 <> Sample.bare.
Proof. repeat split. discriminate. Qed.

Lemma cluster_after_call_witness :
  (CreateOrUpdateStatefulSet Sample.podLabels Sample.flags Sample.ctx Sample.labelled
     Sample.store Sample.scheme).1.1
  = Sample.labelled.
Proof.
  apply (cluster_after_call Sample.podLabels Sample.flags Sample.ctx Sample.labelled
           Sample.store Sample.scheme).
  discriminate.
Defined.

(** C10, as stated, fails: without a peer secret, a user option named
    [peer-cert-file] puts an explicit peer flag in the argument list. *)
Lemma user_peer_cert_file :
  rangeOf (Options (Spec Sample.peerCertOption)) [ ("peer-cert-file", "/tmp/peer.crt") ]
  /\ tlsField PeerSecret Sample.peerCertOption = ""
  /\ generateEtcdArgs [ ("peer-cert-file", "/tmp/peer.crt") ] Sample.peerCertOption
     = [ "--peer-cert-file=/tmp/peer.crt";
         "--name=$(POD_NAME)";
         "--listen-metrics-urls=http://0.0.0.0:2381";
         "--listen-peer-urls=https://0.0.0.0:2380";
         "--listen-client-urls=http://0.0.0.0:2379";
         "--initial-advertise-peer-urls=https://$(POD_NAME).etcd.$(POD_NAMESPACE).svc:2380";
         "--data-dir=/var/run/etcd/default.etcd";
         "--advertise-client-urls=http://$(POD_NAME).etcd.$(POD_NAMESPACE).svc:2379";
         "--peer-auto-tls" ]
  /\ hasExplicitPeerFlag
       (generateEtcdArgs [ ("peer-cert-file", "/tmp/peer.crt") ] Sample.peerCertOption)
     = true.
Proof.
  split; [apply rangeOf_singleton|]. repeat split.
Qed.

Lemma peer_material_by_peer_secret_witness :
  (exists data rest,
     generateVolumes Sample.peerWithoutCA =
       data :: secretVolume "peer-trusted-ca-certificate" ""
       :: secretVolume "peer-certificate" "peer-tls" :: rest
     /\ vol_Name data = "data"
     /\ Forall (fun volume => isPeerName (vol_Name volume) = false) rest)
  /\ Forall (fun volume => isPeerName (vol_Name volume) = false)
       (generateVolumes Sample.peerCAOnly)
  /\ hasExplicitPeerFlag (generatedArgs [] Sample.peerCAOnly) = false.
Proof.
  split.
  - refine (proj1 (proj1 (peer_material_by_peer_secret [] Sample.peerWithoutCA)
                     _ eq_refl _)).
    discriminate.
  - destruct (proj2 (peer_material_by_peer_secret [] Sample.peerCAOnly))
      as (Hvolumes & _ & Hflags); [reflexivity|].
    split; [exact Hvolumes | exact Hflags].
Defined.

Lemma synthesis_deterministic_witness :
  buildStatefulSet Sample.podLabels Sample.flags Sample.labelled Sample.scheme
  = buildStatefulSet (reverse Sample.podLabels) Sample.flags Sample.labelled Sample.scheme
  /\ sameUpToArgOrder
       (generateContainer Sample.flags Sample.labelled)
       (generateContainer (reverse Sample.flags) Sample.labelled).
Proof.
  split.
  - apply (synthesis_deterministic Sample.labelled Sample.scheme
             Sample.podLabels (reverse Sample.podLabels) Sample.flags Sample.flags);
      try (apply rangeOf_list_to_map;
           [first [apply NoDup_podLabels | apply NoDup_flags]
           | first [reflexivity | apply reverse_Permutation]]).
    reflexivity.
  - apply (synthesis_deterministic Sample.labelled Sample.scheme
             Sample.podLabels Sample.podLabels Sample.flags (reverse Sample.flags));
      apply rangeOf_list_to_map;
      first [apply NoDup_podLabels | apply NoDup_flags | reflexivity
            | apply reverse_Permutation].
Defined.

End Examples.

(** ** Further properties of the composers *)

Section Composers.
Context `{Payloads} `{!Collaborators}.

Implicit Types (cluster : EtcdCluster) (options labels : list (string * string)).

Ltac guards cluster :=
  destruct (secretSet PeerSecret cluster) eqn:Gpeer,
    (secretSet ServerSecret cluster) eqn:Gserver,
    (secretSet ClientSecret cluster) eqn:Gclient.

(** Membership in a list written out, as a disjunction of equations. *)
Ltac members Hin :=
  simpl in Hin; rewrite ?elem_of_cons, elem_of_nil in Hin;
  repeat (destruct Hin as [->|Hin]); try contradiction.

(** *** The user's flags *)

(** X1: when the options are visited in an order of the map, the argument
    list starts with one argument per option, in that order, [--name] for
    an empty value and [--name=value] otherwise; every option of the map
    has its argument in the list, and the list is as long as the map is
    large plus the generated arguments. *)
Theorem user_flags_first options cluster :
  rangeOf (Options (Spec cluster)) options ->
  (forall (i : nat) entry,
     options !! i = Some entry ->
     generateEtcdArgs options cluster !! i = Some (optionArg entry))
  /\ (forall name value,
       Options (Spec cluster) !! name = Some value ->
       (if bool_decide (value = "") then "--" +:+ name
        else "--" +:+ name +:+ "=" +:+ value)
         ∈ generateEtcdArgs options cluster)
  /\ length (generateEtcdArgs options cluster)
     = (size (Options (Spec cluster))
        + length (generatedArgs options cluster))%nat.
Proof.
  intros R. rewrite generateEtcdArgs_split, userArgs_fmap.
  split; [|split].
  - intros i entry Hi. rewrite lookup_app_l.
    + by rewrite list_lookup_fmap, Hi.
    + rewrite length_fmap. by eapply lookup_lt_Some.
  - intros name value Hlookup. apply elem_of_app. left.
    assert (Hin : (name, value) ∈ options)
      by (unfold rangeOf in R; rewrite R; by apply elem_of_map_to_list).
    apply (list_elem_of_fmap_2 optionArg) in Hin.
    unfold optionArg in Hin. simpl in Hin.
    destruct value; exact Hin.
  - rewrite length_app, length_fmap. f_equal.
    unfold rangeOf in R. by rewrite R, length_map_to_list.
Qed.

(** *** Paths and mounts *)

(** X2: every path that a generated argument gives to the data directory
    or to a certificate, key or CA file lies under the mount path of one of
    the generated volume mounts. *)
Theorem generated_paths_are_mounted options cluster (name arg path : string) :
  name ∈ pathFlags ->
  arg ∈ generatedArgs options cluster ->
  flagValue name arg = Some path ->
  underMount (generateVolumeMounts cluster) path = true.
Proof.
  intros Hname Harg Hvalue.
  rewrite generatedArgs_eq in Harg. cbv zeta in Harg.
  unfold generateVolumeMounts, pathFlags, listenClientArg, advertiseClientArg in *.
  guards cluster; members Harg; members Hname;
    vm_compute in Hvalue; try discriminate Hvalue;
    injection Hvalue as <-; reflexivity.
Qed.

(** X3: the generated volume mounts have pairwise distinct names and
    pairwise distinct mount paths, the data mount is the only writable one,
    and mounts and volumes name each other: every mount has a generated
    volume of its name and every generated volume is mounted. *)
Theorem mounts_well_formed cluster :
  NoDup (vm_Name <$> generateVolumeMounts cluster)
  /\ NoDup (vm_MountPath <$> generateVolumeMounts cluster)
  /\ (forall mount, mount ∈ generateVolumeMounts cluster ->
        vm_ReadOnly mount = negb (String.eqb (vm_Name mount) "data"))
  /\ (forall mount, mount ∈ generateVolumeMounts cluster ->
        vm_Name mount ∈ vol_Name <$> generateVolumes cluster)
  /\ (forall volume, volume ∈ generateVolumes cluster ->
        vol_Name volume ∈ vm_Name <$> generateVolumeMounts cluster).
Proof.
  unfold generateVolumeMounts, generateVolumes.
  guards cluster; simpl;
    (split; [apply (bool_decide_unpack _); by vm_compute|]);
    (split; [apply (bool_decide_unpack _); by vm_compute|]);
    (split; [intros mount Hin; members Hin; reflexivity|]);
    (split; [intros mount Hin; members Hin; set_solver|]);
    intros volume Hin; members Hin; set_solver.
Qed.

(** X4: every generated volume has exactly one source.  The data volume is
    over the ephemeral directory of the cluster when there is one and over
    the claim named by [GetPVCName] otherwise; every other volume is over
    the secret that the security policy names for it, as it is; the secrets
    of the peer and server certificate volumes are never empty. *)
Theorem volume_sources cluster volume :
  volume ∈ generateVolumes cluster ->
  sourceCount (vol_VolumeSource volume) = 1%nat
  /\ SecretName <$> vs_Secret (vol_VolumeSource volume)
     = secretOfVolume (vol_Name volume) cluster
  /\ (vol_Name volume = "data" ->
      vol_VolumeSource volume
      = match EmptyDir (Storage (Spec cluster)) with
        | Some emptyDir =>
            {| vs_EmptyDir := Some emptyDir; vs_PersistentVolumeClaim := None;
               vs_Secret := None |}
        | None =>
            {| vs_EmptyDir := None;
               vs_PersistentVolumeClaim :=
                 Some {| ClaimName := GetPVCName cluster |};
               vs_Secret := None |}
        end)
  /\ (vol_Name volume = "peer-certificate" \/ vol_Name volume = "server-certificate" ->
      secretOfVolume (vol_Name volume) cluster <> Some "").
Proof.
  intros Hin. unfold generateVolumes in Hin.
  destruct (EmptyDir (Storage (Spec cluster))) as [emptyDir|];
  guards cluster; members Hin;
    (split; [reflexivity|]);
    (split; [reflexivity|]);
    (split; [first [reflexivity | discriminate]|]);
    simpl; intros [E|E]; try discriminate E;
    intros [= F]; revert F; by apply secretSet_true.
Qed.

(** *** Server TLS *)

(** X5: the server certificate and key flags go with the [https] scheme:
    the generated arguments have [--cert-file] and [--key-file] exactly
    when the server secret is set, which is exactly when the client listen
    and advertise arguments use [https]; otherwise they have neither flag
    and both arguments use [http]. *)
Theorem server_tls_with_https options cluster :
  let generated := generatedArgs options cluster in
  let tlsOn := secretSet ServerSecret cluster in
  (tlsOn = true <-> tlsField ServerSecret cluster <> "")
  /\ hasFlag "cert-file" generated = tlsOn
  /\ hasFlag "key-file" generated = tlsOn
  /\ listenClientArg (if tlsOn then "https" else "http") ∈ generated
  /\ advertiseClientArg (if tlsOn then "https" else "http") cluster ∈ generated.
Proof.
  cbv zeta. split; [apply secretSet_true|].
  rewrite generatedArgs_eq. cbv zeta.
  guards cluster; simpl app;
    (split; [reflexivity|]); (split; [reflexivity|]);
    (split; [set_solver|]); set_solver.
Qed.

(** X6: neither the values of the secrets nor any field of the cluster other
    than its name and its security policy reach the arguments or the mounts:
    two clusters with the same name and the same peer, server and client
    secrets set or not get the same argument list and the same mounts. *)
Theorem args_and_mounts_frame options cluster1 cluster2 :
  Name cluster1 = Name cluster2 ->
  (tlsField PeerSecret cluster1 = "" <-> tlsField PeerSecret cluster2 = "") ->
  (tlsField ServerSecret cluster1 = "" <-> tlsField ServerSecret cluster2 = "") ->
  (tlsField ClientSecret cluster1 = "" <-> tlsField ClientSecret cluster2 = "") ->
  generateEtcdArgs options cluster1 = generateEtcdArgs options cluster2
  /\ generateVolumeMounts cluster1 = generateVolumeMounts cluster2.
Proof.
  intros Hname Hpeer Hserver Hclient.
  rewrite <- !secretSet_false in Hpeer, Hserver, Hclient.
  assert (E : forall field,
             (secretSet field cluster1 = false <-> secretSet field cluster2 = false) ->
             secretSet field cluster1 = secretSet field cluster2).
  { intros field [E1 E2].
    destruct (secretSet field cluster1), (secretSet field cluster2); auto.
    symmetry. auto. }
  apply E in Hpeer, Hserver, Hclient.
  unfold generateEtcdArgs, generateVolumeMounts.
  by rewrite Hname, Hpeer, Hserver, Hclient.
Qed.

End Composers.

(** ** Further properties of the construction of the StatefulSet *)

Section Construction.
Context `{Payloads} `{!Collaborators}.

Implicit Types (cluster : EtcdCluster) (options labels : list (string * string)).

Lemma buildStatefulSet_after labels options cluster (rscheme : Scheme) :
  (buildStatefulSet labels options cluster rscheme).1 = withContainers cluster.
Proof. apply buildStatefulSet_cluster. Qed.

(** What a successful construction went through: the merge of the generated
    pod specification with the override, and the owner reference set on the
    StatefulSet assembled around the merged pod specification. *)
Lemma buildStatefulSet_Ok labels options cluster (rscheme : Scheme) statefulSet :
  rangeOf (entries (pt_Labels (PodTemplate_ (Spec cluster)))) labels ->
  (buildStatefulSet labels options cluster rscheme).2 = Ok statefulSet ->
  exists finalPodSpec built,
    StrategicMerge (basePodSpecOf options cluster)
      (pt_Spec (PodTemplate_ (Spec (withContainers cluster)))) = Ok finalPodSpec
    /\ SetControllerReference (withContainers cluster) built rscheme = Ok statefulSet
    /\ sts_ObjectMeta built
       = {| om_Name := Name cluster; om_Namespace := Namespace cluster;
            om_Labels := None; om_Annotations := None; om_OwnerReferences := [] |}
    /\ sts_Replicas (sts_Spec built) = Replicas (Spec cluster)
    /\ sts_ServiceName (sts_Spec built) = Name cluster
    /\ sts_PodManagementPolicy (sts_Spec built) = ParallelPodManagement
    /\ sts_Selector (sts_Spec built)
       = Some {| MatchLabels := clusterLabels (Name cluster) |}
    /\ pts_Spec (sts_Template (sts_Spec built)) = finalPodSpec
    /\ om_Labels (pts_ObjectMeta (sts_Template (sts_Spec built)))
       = Some (entries (pt_Labels (PodTemplate_ (Spec cluster)))
               ∪ clusterLabels (Name cluster))
    /\ om_Annotations (pts_ObjectMeta (sts_Template (sts_Spec built)))
       = pt_Annotations (PodTemplate_ (Spec cluster))
    /\ sts_VolumeClaimTemplates (sts_Spec built)
       = [ {| pvc_ObjectMeta :=
                {| om_Name := GetPVCName cluster; om_Namespace := "";
                   om_Labels :=
                     vct_Labels (VolumeClaimTemplate (Storage (Spec cluster)));
                   om_Annotations :=
                     vct_Annotations (VolumeClaimTemplate (Storage (Spec cluster)));
                   om_OwnerReferences := [] |};
              pvc_Spec := vct_Spec (VolumeClaimTemplate (Storage (Spec cluster)));
              pvc_Status :=
                vct_Status (VolumeClaimTemplate (Storage (Spec cluster))) |} ].
Proof.
  intros R. unfold buildStatefulSet.
  fold (withContainers cluster). fold (basePodSpecOf options cluster).
  assert (Hname : Name (withContainers cluster) = Name cluster)
    by (unfold withContainers; by destruct (ps_Containers _)).
  assert (Hspace : Namespace (withContainers cluster) = Namespace cluster)
    by (unfold withContainers; by destruct (ps_Containers _)).
  assert (Hreplicas : Replicas (Spec (withContainers cluster)) = Replicas (Spec cluster))
    by (unfold withContainers; by destruct (ps_Containers _)).
  rewrite Hname, Hspace, Hreplicas.
  destruct (StrategicMerge _ _) as [finalPodSpec|cause]; [|discriminate].
  destruct (SetControllerReference _ _ _) as [sts|cause] eqn:Href; [|discriminate].
  intros [= <-]. eexists _, _. split; [reflexivity|]. split; [exact Href|].
  simpl. repeat split.
  - destruct (pt_Labels (PodTemplate_ (Spec cluster))) as [userLabels|] eqn:L;
      destruct (pt_Annotations (PodTemplate_ (Spec cluster))); simpl.
    + by rewrite (foldl_putLabel_range _ userLabels).
    + by rewrite (foldl_putLabel_range _ userLabels).
    + by rewrite (left_id_L ∅ (∪)).
    + by rewrite (left_id_L ∅ (∪)).
  - by destruct (pt_Annotations (PodTemplate_ (Spec cluster))).
Qed.

(** X7: in the StatefulSet on which a successful construction sets the
    owner reference, the selector is the label set of the cluster name; the
    labels of the pod template are the user's labels laid over that set:
    every user label is there with the user's value, every other key has
    the value of the set.  So the selector matches the pod labels exactly
    when no user label gives another value to a key of the selector. *)
Theorem pod_labels_and_selector labels options cluster (rscheme : Scheme) statefulSet :
  rangeOf (entries (pt_Labels (PodTemplate_ (Spec cluster)))) labels ->
  (buildStatefulSet labels options cluster rscheme).2 = Ok statefulSet ->
  let selector := clusterLabels (Name cluster) in
  let user := entries (pt_Labels (PodTemplate_ (Spec cluster))) in
  exists built podLabels,
    SetControllerReference (withContainers cluster) built rscheme = Ok statefulSet
    /\ sts_Selector (sts_Spec built) = Some {| MatchLabels := selector |}
    /\ om_Labels (pts_ObjectMeta (sts_Template (sts_Spec built))) = Some podLabels
    /\ (forall key value, user !! key = Some value -> podLabels !! key = Some value)
    /\ (forall key, user !! key = None -> podLabels !! key = selector !! key)
    /\ (selector ⊆ podLabels <->
        forall key value value',
          selector !! key = Some value -> user !! key = Some value' ->
          value = value').
Proof.
  intros R Hok. cbv zeta.
  destruct (buildStatefulSet_Ok _ _ _ _ _ R Hok)
    as (final & built & _ & Href & _ & _ & _ & _ & Hsel & _ & Hlabels & _).
  exists built, (entries (pt_Labels (PodTemplate_ (Spec cluster)))
                 ∪ clusterLabels (Name cluster)).
  split; [exact Href|]. split; [exact Hsel|]. split; [exact Hlabels|].
  set (user := entries _). set (selector := clusterLabels _).
  split; [|split; [|split]].
  - intros key value Hu. by apply lookup_union_Some_l.
  - intros key Hu. by apply lookup_union_r.
  - intros Hsub key value value' Hs Hu.
    pose proof (lookup_weaken _ _ _ _ Hs Hsub) as Hp.
    rewrite (lookup_union_Some_l _ _ _ _ Hu) in Hp. congruence.
  - intros Hagree. apply map_subseteq_spec. intros key value Hs.
    destruct (user !! key) as [value'|] eqn:Hu.
    + rewrite (lookup_union_Some_l _ _ _ _ Hu). f_equal.
      symmetry. by eapply Hagree.
    + by rewrite lookup_union_r.
Qed.

(** X8: the StatefulSet on which a successful construction sets the owner
    reference has exactly one volume-claim template, with ephemeral storage
    or without: it is named by [GetPVCName] and carries the labels, the
    annotations, the specification and the status of the template of the
    cluster; without ephemeral storage its name is the claim of the
    generated data volume. *)
Theorem one_claim_template labels options cluster (rscheme : Scheme) statefulSet :
  rangeOf (entries (pt_Labels (PodTemplate_ (Spec cluster)))) labels ->
  (buildStatefulSet labels options cluster rscheme).2 = Ok statefulSet ->
  let storage := Storage (Spec cluster) in
  exists built template,
    SetControllerReference (withContainers cluster) built rscheme = Ok statefulSet
    /\ sts_VolumeClaimTemplates (sts_Spec built) = [ template ]
    /\ om_Name (pvc_ObjectMeta template) = GetPVCName cluster
    /\ om_Labels (pvc_ObjectMeta template) = vct_Labels (VolumeClaimTemplate storage)
    /\ om_Annotations (pvc_ObjectMeta template)
       = vct_Annotations (VolumeClaimTemplate storage)
    /\ pvc_Spec template = vct_Spec (VolumeClaimTemplate storage)
    /\ pvc_Status template = vct_Status (VolumeClaimTemplate storage)
    /\ (EmptyDir storage = None ->
        exists data,
          head (generateVolumes cluster) = Some data
          /\ vs_PersistentVolumeClaim (vol_VolumeSource data)
             = Some {| ClaimName := om_Name (pvc_ObjectMeta template) |}).
Proof.
  intros R Hok. cbv zeta.
  destruct (buildStatefulSet_Ok _ _ _ _ _ R Hok)
    as (final & built & _ & Href & _ & _ & _ & _ & _ & _ & _ & _ & Hvct).
  eexists built, _. split; [exact Href|]. split; [exact Hvct|].
  simpl. repeat split.
  intros Hdir. exists (claimDataVolume (GetPVCName cluster)).
  split; [|reflexivity].
  unfold generateVolumes. rewrite Hdir.
  by destruct (secretSet PeerSecret cluster), (secretSet ServerSecret cluster),
    (secretSet ClientSecret cluster).
Qed.


(** X10: the write to the cluster happens once: a call on the cluster that
    an earlier call has left, with any iteration orders, context, store and
    scheme, leaves it as it is. *)
Theorem second_call_keeps_cluster
  labels options (ctx : Ctx) cluster (rclient : Client) (rscheme : Scheme)
  labels' options' (ctx' : Ctx) (rclient' : Client) (rscheme' : Scheme) :
  let after :=
    (CreateOrUpdateStatefulSet labels options ctx cluster rclient rscheme).1.1 in
  (CreateOrUpdateStatefulSet labels' options' ctx' after rclient' rscheme').1.1
  = after.
Proof.
  cbv zeta.
  rewrite !CreateOrUpdateStatefulSet_cluster, !buildStatefulSet_after.
  unfold withContainers at 1.
  destruct (ps_Containers (pt_Spec (PodTemplate_ (Spec (withContainers cluster)))))
    eqn:E; [reflexivity|].
  exfalso. revert E. unfold withContainers.
  by destruct (ps_Containers (pt_Spec (PodTemplate_ (Spec cluster)))) eqn:F;
    simpl; rewrite ?F.
Qed.

End Construction.

(** ** The further properties on concrete clusters *)

Section MoreExamples.
#[local] Existing Instance Sample.payloads.
#[local] Existing Instance Sample.collaborators.

Lemma rangeOf_labelled_flags :
  rangeOf (Options (Spec Sample.labelled)) Sample.flags.
Proof. by apply rangeOf_list_to_map; [apply NoDup_flags|]. Qed.

Lemma rangeOf_labelled_labels :
  rangeOf (entries (pt_Labels (PodTemplate_ (Spec Sample.labelled)))) Sample.podLabels.
Proof. by apply rangeOf_list_to_map; [apply NoDup_podLabels|]. Qed.

Lemma user_flags_first_witness :
  generateEtcdArgs Sample.flags Sample.labelled !! 0%nat
  = Some "--quota-backend-bytes=8589934592"
  /\ generateEtcdArgs Sample.flags Sample.labelled !! 1%nat = Some "--debug".
Proof.
  destruct (user_flags_first Sample.flags Sample.labelled rangeOf_labelled_flags)
    as (Hat & _ & _).
  split.
  - exact (Hat 0%nat ("quota-backend-bytes", "8589934592") eq_refl).
  - exact (Hat 1%nat ("debug", "") eq_refl).
Defined.

Lemma generated_paths_are_mounted_witness :
  underMount (generateVolumeMounts Sample.secured) "/etc/etcd/pki/peer/cert/tls.crt"
  = true.
Proof.
  apply (generated_paths_are_mounted [] Sample.secured "peer-cert-file"
           "--peer-cert-file=/etc/etcd/pki/peer/cert/tls.crt").
  - unfold pathFlags. set_solver.
  - rewrite generatedArgs_eq. simpl. set_solver.
  - reflexivity.
Defined.

Lemma volume_sources_witness :
  sourceCount (vol_VolumeSource (secretVolume "server-certificate" "server-tls")) = 1%nat
  /\ secretOfVolume "server-certificate" Sample.secured = Some "server-tls".
Proof.
  destruct (volume_sources Sample.secured
              (secretVolume "server-certificate" "server-tls"))
    as (Hcount & Hsecret & _).
  - unfold generateVolumes. simpl. set_solver.
  - split; [exact Hcount | symmetry; exact Hsecret].
Defined.

Lemma args_and_mounts_frame_witness :
  generateEtcdArgs [] Sample.secured = generateEtcdArgs [] Sample.rotated
  /\ generateVolumeMounts Sample.secured = generateVolumeMounts Sample.rotated.
Proof.
  apply (args_and_mounts_frame [] Sample.secured Sample.rotated);
    first [reflexivity | split; discriminate].
Defined.

Lemma pod_labels_and_selector_witness :
  exists statefulSet built podLabels,
    (buildStatefulSet Sample.podLabels Sample.flags Sample.labelled Sample.scheme).2
    = Ok statefulSet
    /\ SetControllerReference (withContainers Sample.labelled) built Sample.scheme
       = Ok statefulSet
    /\ om_Labels (pts_ObjectMeta (sts_Template (sts_Spec built))) = Some podLabels
    /\ podLabels !! "team" = Some "storage".
Proof.
  assert (Hok : exists statefulSet,
             (buildStatefulSet Sample.podLabels Sample.flags Sample.labelled
                Sample.scheme).2 = Ok statefulSet)
    by (eexists; reflexivity).
  destruct Hok as [statefulSet Hok]. exists statefulSet.
  destruct (pod_labels_and_selector Sample.podLabels Sample.flags Sample.labelled
              Sample.scheme statefulSet rangeOf_labelled_labels Hok)
    as (built & podLabels & Href & _ & Hlabels & Huser & _).
  exists built, podLabels.
  split; [exact Hok|]. split; [exact Href|]. split; [exact Hlabels|].
  apply Huser. by vm_compute.
Defined.

Lemma one_claim_template_witness :
  exists statefulSet built template,
    (buildStatefulSet Sample.podLabels Sample.flags Sample.labelled Sample.scheme).2
    = Ok statefulSet
    /\ sts_VolumeClaimTemplates (sts_Spec built) = [ template ]
    /\ om_Name (pvc_ObjectMeta template) = "data".
Proof.
  assert (Hok : exists statefulSet,
             (buildStatefulSet Sample.podLabels Sample.flags Sample.labelled
                Sample.scheme).2 = Ok statefulSet)
    by (eexists; reflexivity).
  destruct Hok as [statefulSet Hok]. exists statefulSet.
  destruct (one_claim_template Sample.podLabels Sample.flags Sample.labelled
              Sample.scheme statefulSet rangeOf_labelled_labels Hok)
    as (built & template & _ & Hone & Hname & _).
  exists built, template.
  split; [exact Hok|]. split; [exact Hone | exact Hname].
Defined.

End MoreExamples.
